(** * Zeus ERP credentials: service, validation schema and controller

    Shallow embedding of [src/backend/src/services/zeusService.ts]:
    - [ZeusService] (getCredentials / upsertCredentials / deleteCredentials)
      over the [credentialsZeus] table, modelled as a list of rows with
      explicit state passing;
    - the zod [credentialsSchema] and its [safeParse], including the
      difference between issues (dirty / invalid results) and an exception
      thrown from inside a [transform];
    - [ZeusController], which turns everything into an HTTP status and a
      JSON body, catching exceptions into a generic 500 answer. *)

From Stdlib Require Import String Ascii ZArith QArith List Bool Lia Permutation.
Import ListNotations.
Open Scope string_scope.
Set Warnings "-register-all".

(* ------------------------------------------------------------------ *)
(** ** JSON values (request bodies and response bodies) *)

Inductive json : Type :=
| JNull
| JBool (b : bool)
| JNum (q : Q)
| JStr (s : string)
| JArr (xs : list json)
| JObj (kvs : list (string * json)).

(** Property access [obj[k]] on a JSON object: [None] is [undefined]. *)
Fixpoint lookup_key (k : string) (kvs : list (string * json)) : option json :=
  match kvs with
  | [] => None
  | (k', v) :: rest => if String.eqb k k' then Some v else lookup_key k rest
  end.

Definition get_field (k : string) (j : json) : option json :=
  match j with
  | JObj kvs => lookup_key k kvs
  | _ => None
  end.

(** [const { k, ...rest } = obj]: the object without key [k]. *)
Definition omit_key (k : string) (kvs : list (string * json))
  : list (string * json) :=
  filter (fun kv => negb (String.eqb k (fst kv))) kvs.

(** Does a string occur as a value anywhere inside a JSON value? *)
Fixpoint json_has_string (s : string) (j : json) : bool :=
  match j with
  | JStr s' => String.eqb s s'
  | JArr xs => existsb (json_has_string s) xs
  | JObj kvs =>
      (fix go (l : list (string * json)) : bool :=
         match l with
         | [] => false
         | (_, v) :: r => json_has_string s v || go r
         end) kvs
  | _ => false
  end.

(* ------------------------------------------------------------------ *)
(** ** The [credentialsZeus] table *)

(** One row of [prisma.credentialsZeus]: the columns written by
    [upsertCredentials]. *)
Record CredentialsZeus : Type := mkCredentialsZeus {
  tenantId : string;
  host : string;
  port : Z;
  databaseName : string;
  username : string;
  password : string
}.

Definition table := list CredentialsZeus.

(** Serialisation of a row as Prisma returns it (and Express sends it). *)
Definition credentials_json (r : CredentialsZeus) : list (string * json) :=
  [ ("tenantId", JStr (tenantId r));
    ("host", JStr (host r));
    ("port", JNum (inject_Z (port r)));
    ("databaseName", JStr (databaseName r));
    ("username", JStr (username r));
    ("password", JStr (password r)) ].

(** [findUnique({ where: { tenantId } })] *)
Fixpoint findUnique (tid : string) (t : table) : option CredentialsZeus :=
  match t with
  | [] => None
  | r :: rest => if String.eqb (tenantId r) tid then Some r else findUnique tid rest
  end.

(** [ZeusCredentialsInput] after validation. *)
Record ZeusCredentialsInput : Type := mkInput {
  in_host : string;
  in_port : Z;
  in_databaseName : string;
  in_username : string;
  in_password : option string
}.

(** The [upsertData] object: [password] is present only when set. *)
Record UpsertData : Type := mkUpsertData {
  u_host : string;
  u_port : Z;
  u_databaseName : string;
  u_username : string;
  u_tenantId : string;
  u_password : option string
}.

(** JavaScript truthiness of [data.password]. *)
Definition truthy_opt_string (o : option string) : bool :=
  match o with
  | Some s => negb (String.eqb s "")
  | None => false
  end.

Definition build_upsertData (tid : string) (data : ZeusCredentialsInput)
  : UpsertData :=
  let base := mkUpsertData (in_host data) (in_port data) (in_databaseName data)
                (in_username data) tid None in
  (* if (data.password && data.password.length > 0) upsertData.password = ... *)
  match in_password data with
  | Some p => if truthy_opt_string (Some p) && (0 <? String.length p)%nat
              then mkUpsertData (u_host base) (u_port base) (u_databaseName base)
                     (u_username base) (u_tenantId base) (Some p)
              else base
  | None => base
  end.

(** [update: upsertData] applied to an existing row. *)
Definition apply_update (u : UpsertData) (r : CredentialsZeus) : CredentialsZeus :=
  mkCredentialsZeus (u_tenantId u) (u_host u) (u_port u) (u_databaseName u)
    (u_username u)
    (match u_password u with Some p => p | None => password r end).

(** [create: { ...upsertData, password: data.password || '' }] *)
Definition create_row (u : UpsertData) (data : ZeusCredentialsInput)
  : CredentialsZeus :=
  mkCredentialsZeus (u_tenantId u) (u_host u) (u_port u) (u_databaseName u)
    (u_username u)
    (match in_password data with
     | Some p => if String.eqb p "" then "" else p
     | None => ""
     end).

(** Update the unique row with key [tid] in place, if there is one. *)
Fixpoint update_first (tid : string) (f : CredentialsZeus -> CredentialsZeus)
  (t : table) : option (CredentialsZeus * table) :=
  match t with
  | [] => None
  | r :: rest =>
      if String.eqb (tenantId r) tid then Some (f r, f r :: rest)
      else match update_first tid f rest with
           | Some (r', rest') => Some (r', r :: rest')
           | None => None
           end
  end.

Module ZeusService.

(** [getCredentials]: the row without its password, plus [hasPassword]. *)
Definition getCredentials (tid : string) (t : table) : option json :=
  match findUnique tid t with
  | Some credentials =>
      let rest := omit_key "password" (credentials_json credentials) in
      let pw := password credentials in
      Some (JObj (app rest [("hasPassword",
                            JBool (negb (String.eqb pw "") && (0 <? String.length pw)%nat))]))
  | None => None
  end.

(** [upsertCredentials]: returns the stored row and the new table. *)
Definition upsertCredentials (tid : string) (data : ZeusCredentialsInput)
  (t : table) : CredentialsZeus * table :=
  let upsertData := build_upsertData tid data in
  match update_first tid (apply_update upsertData) t with
  | Some (r, t') => (r, t')
  | None => let r := create_row upsertData data in (r, app t [r])
  end.

(** [deleteCredentials]: [deleteMany({ where: { tenantId } })]. *)
Definition deleteCredentials (tid : string) (t : table) : table :=
  filter (fun r => negb (String.eqb (tenantId r) tid)) t.

End ZeusService.

(* ------------------------------------------------------------------ *)
(** ** JavaScript [parseInt(val, 10)] *)

Module JS.

(** Leading white space skipped by [parseInt] (the ASCII members of
    StrWhiteSpaceChar and LineTerminator). *)
Definition is_space (c : ascii) : bool :=
  let n := nat_of_ascii c in
  (n =? 32)%nat || (n =? 9)%nat || (n =? 10)%nat || (n =? 11)%nat
  || (n =? 12)%nat || (n =? 13)%nat.

Fixpoint trim_start (s : string) : string :=
  match s with
  | String c r => if is_space c then trim_start r else s
  | EmptyString => EmptyString
  end.

Definition digit_value (c : ascii) : option Z :=
  let n := nat_of_ascii c in
  if (48 <=? n)%nat && (n <=? 57)%nat then Some (Z.of_nat (n - 48)) else None.

(** The longest prefix of decimal digits: (number of digits, value). *)
Fixpoint digits_prefix (s : string) (acc : Z) (cnt : nat) : nat * Z :=
  match s with
  | String c r =>
      match digit_value c with
      | Some d => digits_prefix r (acc * 10 + d) (S cnt)
      | None => (cnt, acc)
      end
  | EmptyString => (cnt, acc)
  end.

(** [parseInt(val, 10)]; [None] is [NaN]. *)
Definition parseInt10 (val : string) : option Z :=
  let s := trim_start val in
  let '(sign, body) :=
    match s with
    | String "-"%char r => ((-1)%Z, r)
    | String "+"%char r => (1%Z, r)
    | _ => (1%Z, s)
    end in
  let '(cnt, v) := digits_prefix body 0%Z 0%nat in
  if (cnt =? 0)%nat then None else Some (sign * v)%Z.

End JS.

(* ------------------------------------------------------------------ *)
(** ** zod: parse results, issues and thrown exceptions *)

Module Zod.

Record issue : Type := mkIssue { path : string; message : string }.

(** A zod parse status.  A dirty result (a check failed on a value of the
    right type) keeps going; an invalid one (wrong type) aborts.  The value
    carried by a dirty result is never observed by [safeParse], so it is
    not kept. *)
Inductive zres (A : Type) : Type :=
| ZValid (a : A)
| ZDirty (iss : list issue)
| ZInvalid (iss : list issue).
Arguments ZValid {A} a.
Arguments ZDirty {A} iss.
Arguments ZInvalid {A} iss.

(** JavaScript control flow: a value is returned, or an [Error] is thrown.
    zod does not catch what a [transform] callback throws. *)
Inductive outcome (A : Type) : Type :=
| Returned (a : A)
| Thrown (e : string).
Arguments Returned {A} a.
Arguments Thrown {A} e.

Definition bind {A B} (m : outcome A) (k : A -> outcome B) : outcome B :=
  match m with
  | Returned a => k a
  | Thrown e => Thrown e
  end.

Notation "'let!' x ':=' m 'in' k" := (bind m (fun x => k))
  (at level 200, x name, m at level 100, k at level 200).

Definition issues_of {A} (r : zres A) : list issue :=
  match r with
  | ZValid _ => []
  | ZDirty iss | ZInvalid iss => iss
  end.

(** [z.string().min(1, msg)] *)
Definition string_min1 (p msg : string) (j : option json) : zres string :=
  match j with
  | Some (JStr s) =>
      if (1 <=? String.length s)%nat then ZValid s
      else ZDirty [mkIssue p msg]
  | None => ZInvalid [mkIssue p "Required"]
  | Some _ => ZInvalid [mkIssue p "Expected string"]
  end.

(** [Number.isInteger] on a rational JavaScript number. *)
Definition is_integer (q : Q) : bool := Pos.eqb (Qden (Qred q)) 1.

(** [z.number().int().positive(msg)]: both checks run. *)
Definition number_int_positive (p msg : string) (j : option json) : zres Z :=
  match j with
  | Some (JNum q) =>
      let iss := (if is_integer q then []
                  else [mkIssue p "Expected integer, received float"])
                 ++ (if negb (Qle_bool q 0) then [] else [mkIssue p msg]) in
      match iss with
      | [] => ZValid (Qnum (Qred q))
      | _ => ZDirty iss
      end
  | None => ZInvalid [mkIssue p "Required"]
  | Some _ => ZInvalid [mkIssue p "Expected number"]
  end%list.

(** [z.union([a, b])], synchronous: the first valid option wins, else the
    first dirty one, else an [invalid_union] issue.  An exception thrown
    by an option propagates. *)
Definition union2 {A} (p : string) (a b : option json -> outcome (zres A))
  (j : option json) : outcome (zres A) :=
  let! ra := a j in
  match ra with
  | ZValid _ => Returned ra
  | _ =>
      let! rb := b j in
      match rb with
      | ZValid _ => Returned rb
      | _ =>
          match ra, rb with
          | ZDirty _, _ => Returned ra
          | _, ZDirty _ => Returned rb
          | _, _ => Returned (ZInvalid [mkIssue p "Invalid input"])
          end
      end
  end.

End Zod.

(* ------------------------------------------------------------------ *)
(** ** [credentialsSchema] *)

Module Schema.
Import Zod.

Definition msg_port_positive := "Porta deve ser um número positivo".

(** [z.string().min(1, 'Porta é obrigatória').transform(val => ...)]:
    the callback throws an [Error] on [NaN] or a non-positive number. *)
Definition port_string_branch (j : option json) : outcome (zres Z) :=
  match string_min1 "port" "Porta é obrigatória" j with
  | ZValid val =>
      match JS.parseInt10 val with
      | None => Thrown msg_port_positive
      | Some num => if (num <=? 0)%Z then Thrown msg_port_positive
                    else Returned (ZValid num)
      end
  | ZDirty iss => Returned (ZDirty iss)
  | ZInvalid iss => Returned (ZInvalid iss)
  end.

Definition port_number_branch (j : option json) : outcome (zres Z) :=
  Returned (number_int_positive "port" msg_port_positive j).

(** [port: z.union([z.number()..., z.string()...transform(...)])] *)
Definition port_schema : option json -> outcome (zres Z) :=
  union2 "port" port_number_branch port_string_branch.

(** [z.string().optional()] *)
Definition optional_string (j : option json) : outcome (zres (option string)) :=
  match j with
  | None => Returned (ZValid None)
  | Some (JStr s) => Returned (ZValid (Some s))
  | Some _ => Returned (ZInvalid [mkIssue "password" "Expected string"])
  end.

(** [z.literal('')] *)
Definition literal_empty (j : option json) : outcome (zres (option string)) :=
  match j with
  | Some (JStr s) =>
      if String.eqb s "" then Returned (ZValid (Some ""))
      else Returned (ZInvalid [mkIssue "password" "Invalid literal value"])
  | _ => Returned (ZInvalid [mkIssue "password" "Invalid literal value"])
  end.

(** [password: z.string().optional().or(z.literal(''))] *)
Definition password_schema : option json -> outcome (zres (option string)) :=
  union2 "password" optional_string literal_empty.

Definition is_valid {A} (r : zres A) : bool :=
  match r with ZValid _ => true | _ => false end.
Definition is_invalid {A} (r : zres A) : bool :=
  match r with ZInvalid _ => true | _ => false end.

(** [credentialsSchema = z.object({...})]: every key is parsed in order
    (host, port, databaseName, username, password) and the issues are
    collected; an exception from a field stops everything. *)
Definition credentialsSchema (body : json)
  : outcome (zres ZeusCredentialsInput) :=
  match body with
  | JObj kvs =>
      let rh := string_min1 "host" "Host é obrigatório" (lookup_key "host" kvs) in
      let! rp := port_schema (lookup_key "port" kvs) in
      let rd := string_min1 "databaseName" "Nome do banco é obrigatório"
                  (lookup_key "databaseName" kvs) in
      let ru := string_min1 "username" "Usuário é obrigatório"
                  (lookup_key "username" kvs) in
      let! rw := password_schema (lookup_key "password" kvs) in
      match rh, rp, rd, ru, rw with
      | ZValid h, ZValid p, ZValid d, ZValid u, ZValid w =>
          Returned (ZValid (mkInput h p d u w))
      | _, _, _, _, _ =>
          let iss := (issues_of rh ++ issues_of rp ++ issues_of rd
                      ++ issues_of ru ++ issues_of rw)%list in
          if is_invalid rh || is_invalid rp || is_invalid rd
             || is_invalid ru || is_invalid rw
          then Returned (ZInvalid iss) else Returned (ZDirty iss)
      end
  | _ => Returned (ZInvalid [mkIssue "" "Expected object"])
  end.

Inductive safe_parse_result : Type :=
| SPSuccess (data : ZeusCredentialsInput)
| SPError (errors : list issue).

(** [credentialsSchema.safeParse(body)]: issues become an error result,
    a thrown exception goes through. *)
Definition safeParse (body : json) : outcome safe_parse_result :=
  let! r := credentialsSchema body in
  match r with
  | ZValid d => Returned (SPSuccess d)
  | ZDirty iss | ZInvalid iss => Returned (SPError iss)
  end.

End Schema.

(* ------------------------------------------------------------------ *)
(** ** [ZeusController] *)

Record AuthenticatedRequest : Type := mkRequest {
  req_tenantId : option string;
  req_body : json
}.

Record Response : Type := mkResponse {
  status : Z;
  body : json
}.

(** [if (!req.tenantId)]: [undefined] and [''] are falsy. *)
Definition resolved_tenant (req : AuthenticatedRequest) : option string :=
  match req_tenantId req with
  | Some s => if String.eqb s "" then None else Some s
  | None => None
  end.

Definition issue_json (i : Zod.issue) : json :=
  JObj [("path", JArr [JStr (Zod.path i)]); ("message", JStr (Zod.message i))].

Definition tenant_missing : Response :=
  mkResponse 400 (JObj [("success", JBool false);
                        ("message", JStr "Tenant não identificado")]).

Definition internal_error : Response :=
  mkResponse 500 (JObj [("success", JBool false);
                        ("message", JStr "Erro interno do servidor")]).

Module ZeusController.

Definition getCredentials (req : AuthenticatedRequest) (t : table)
  : Response * table :=
  match resolved_tenant req with
  | None => (tenant_missing, t)
  | Some tid =>
      let credentials := ZeusService.getCredentials tid t in
      (mkResponse 200 (JObj [("success", JBool true);
                             ("data", match credentials with
                                      | Some c => c
                                      | None => JNull
                                      end)]), t)
  end.

(** The [try]/[catch] turns a thrown exception into a 500 answer. *)
Definition saveCredentials (req : AuthenticatedRequest) (t : table)
  : Response * table :=
  match resolved_tenant req with
  | None => (tenant_missing, t)
  | Some tid =>
      match Schema.safeParse (req_body req) with
      | Zod.Thrown _ => (internal_error, t)
      | Zod.Returned (Schema.SPError errs) =>
          (mkResponse 400 (JObj [("success", JBool false);
                                 ("message", JStr "Dados inválidos");
                                 ("errors", JArr (map issue_json errs))]), t)
      | Zod.Returned (Schema.SPSuccess data) =>
          let '(credentials, t') := ZeusService.upsertCredentials tid data t in
          (mkResponse 200 (JObj [("success", JBool true);
                                 ("message", JStr "Credenciais salvas com sucesso");
                                 ("data", JObj (credentials_json credentials))]), t')
      end
  end.

Definition deleteCredentials (req : AuthenticatedRequest) (t : table)
  : Response * table :=
  match resolved_tenant req with
  | None => (tenant_missing, t)
  | Some tid =>
      let t' := ZeusService.deleteCredentials tid t in
      (mkResponse 200 (JObj [("success", JBool true);
                             ("message", JStr "Credenciais removidas com sucesso")]), t')
  end.

End ZeusController.

(* ------------------------------------------------------------------ *)
(** ** Client side: the [zeusPort] field of [settingsSchema]
    ([src/frontend/src/pages/SettingsPage.tsx]) on a number input:
    [z.coerce.number().min(1).max(65535)]. *)

Definition client_zeusPort_ok (q : Q) : bool :=
  Qle_bool 1 q && Qle_bool q 65535.

(* ------------------------------------------------------------------ *)
(** ** Reachable tables *)

Open Scope list_scope.

Inductive reachable : table -> Prop :=
| reach_init : reachable []
| reach_get req t : reachable t -> reachable (snd (ZeusController.getCredentials req t))
| reach_save req t : reachable t -> reachable (snd (ZeusController.saveCredentials req t))
| reach_delete req t : reachable t -> reachable (snd (ZeusController.deleteCredentials req t)).

(** Zero or one row per tenant. *)
Definition unique_tenants (t : table) : Prop := NoDup (map tenantId t).

Definition count_tenant (tid : string) (t : table) : nat :=
  length (filter (fun r => String.eqb (tenantId r) tid) t).

(** The rows of one tenant. *)
Definition rows_of (tid : string) (t : table) : table :=
  filter (fun r => String.eqb (tenantId r) tid) t.

(** Two rows that agree on everything but the password, and on whether it
    is empty. *)
Definition same_but_password (r1 r2 : CredentialsZeus) : Prop :=
  tenantId r1 = tenantId r2 /\ host r1 = host r2 /\ port r1 = port r2 /\
  databaseName r1 = databaseName r2 /\ username r1 = username r2 /\
  String.eqb (password r1) "" = String.eqb (password r2) "".

(* ------------------------------------------------------------------ *)
(** ** Sample requests and rows *)

(** The answer of a read for a tenant without a row. *)
Definition read_null : Response :=
  mkResponse 200 (JObj [("success", JBool true); ("data", JNull)]).

(** The end-to-end sample payload of the spec. *)
Definition e2e_body : json :=
  JObj [("host", JStr "10.0.0.1"); ("port", JNum 3050);
        ("databaseName", JStr "DB.FDB"); ("username", JStr "SYSDBA");
        ("password", JStr "pw")].

(** A payload with the given port value and no password. *)
Definition port_payload (h d u : string) (pt : json) : json :=
  JObj [("host", JStr h); ("port", pt); ("databaseName", JStr d); ("username", JStr u)].

Definition port_request (pt : json) : AuthenticatedRequest :=
  mkRequest (Some "tenant-1") (port_payload "h" "d" "u" pt).

Definition sample_row : CredentialsZeus :=
  mkCredentialsZeus "tenant-1" "old-host" 3050 "OLD.FDB" "SYSDBA" "secret".

Definition sample_input : ZeusCredentialsInput :=
  mkInput "10.0.0.2" 5432 "NEW.FDB" "ADMIN" None.

(* ------------------------------------------------------------------ *)
(** ** Routes ([src/backend/src/routes/zeus.ts]) *)


(** The port values on which [credentialsSchema]'s string branch throws
    from inside its [transform]: non-empty strings whose [parseInt] is
    [NaN] or not positive. *)
Definition port_string_throws (j : option json) : Prop :=
  exists s, j = Some (JStr s) /\ s <> "" /\
    match JS.parseInt10 s with None => True | Some n => (n <= 0)%Z end.

(* ------------------------------------------------------------------ *)
(** ** Requests built by the settings page
    ([src/frontend/src/pages/SettingsPage.tsx]) *)

Module Frontend.

(** A JavaScript property value: [undefined] or a JSON value. *)
Inductive jsval : Type :=
| Undefined
| Val (v : json).

Definition jsobj := list (string * jsval).

(** [obj[k] = v]: an existing key is updated in place, a new one is added
    last. *)
Fixpoint js_set (k : string) (v : jsval) (o : jsobj) : jsobj :=
  match o with
  | [] => [(k, v)]
  | (k', v') :: r => if String.eqb k k' then (k, v) :: r else (k', v') :: js_set k v r
  end.

(** [JSON.stringify] of an object drops the properties holding [undefined]. *)
Definition stringify (o : jsobj) : json :=
  JObj (flat_map (fun kv => match snd kv with
                            | Undefined => []
                            | Val v => [(fst kv, v)]
                            end) o).

(** [user?.role === 'SUPERADMIN'] *)
Definition is_superadmin (role : option string) : bool :=
  match role with
  | Some r => String.eqb r "SUPERADMIN"
  | None => false
  end.

(** [loadSettings]: the URL it fetches; [sel] is
    [localStorage.getItem('superadmin_selected_tenant')]. *)
Definition loadSettings_url (role sel : option string) : string :=
  let url := "/api/settings" in
  if is_superadmin role then
    match sel with
    | Some selectedTenantId =>
        if truthy_opt_string (Some selectedTenantId)
        then ("/api/settings?tenantId=" ++ selectedTenantId)%string else url
    | None => url
    end
  else url.

(** [onSubmit]: the body of the PUT, [{ ...data, tenantId }] for a
    super admin with a selected tenant. *)
Definition onSubmit_body (role sel : option string) (data : jsobj) : json :=
  let requestData :=
    if is_superadmin role then
      match sel with
      | Some selectedTenantId =>
          if truthy_opt_string (Some selectedTenantId)
          then js_set "tenantId" (Val (JStr selectedTenantId)) data else data
      | None => data
      end
    else data in
  stringify requestData.

Inductive integration : Type := openai | groq | zeus.

(** [removeIntegration(type)]: [None] when the [confirm] dialog is
    declined (no request), else the body of the PUT. *)
Definition removeIntegration_body (confirmed : bool) (type : integration)
  (role sel : option string) : option json :=
  if negb confirmed then None else
  let requestData : jsobj :=
    match type with
    | openai => js_set "openaiApiKey" (Val (JStr "")) []
    | groq => js_set "groqApiKey" (Val (JStr "")) []
    | zeus =>
        let o := js_set "zeusHost" (Val (JStr "")) [] in
        let o := js_set "zeusPort" Undefined o in
        let o := js_set "zeusDatabase" (Val (JStr "")) o in
        let o := js_set "zeusUsername" (Val (JStr "")) o in
        js_set "zeusPassword" (Val (JStr "")) o
    end in
  let requestData :=
    if is_superadmin role then
      match sel with
      | Some selectedTenantId =>
          if truthy_opt_string (Some selectedTenantId)
          then js_set "tenantId" (Val (JStr selectedTenantId)) requestData
          else requestData
      | None => requestData
      end
    else requestData in
  Some (stringify requestData).

(** The tenant the page targets: the selected one, for a super admin. *)
Definition selected_tenant (role sel : option string) : option string :=
  if is_superadmin role then
    match sel with
    | Some s => if String.eqb s "" then None else Some s
    | None => None
    end
  else None.

End Frontend.

(** A string made of decimal digits only. *)
Fixpoint all_digits (s : string) : bool :=
  match s with
  | EmptyString => true
  | String c r => match JS.digit_value c with Some _ => all_digits r | None => false end
  end.

(* ------------------------------------------------------------------ *)
(** ** Lemmas on the table operations *)

Lemma findUnique_some tid t r :
  findUnique tid t = Some r -> In r t /\ tenantId r = tid.
Proof.
  induction t as [|x t IH]; simpl; [discriminate|].
  destruct (String.eqb_spec (tenantId x) tid).
  - intros [= <-]. auto.
  - intros H. destruct (IH H). auto.
Qed.

Lemma findUnique_none tid t :
  findUnique tid t = None <-> (forall r, In r t -> tenantId r <> tid).
Proof.
  induction t as [|x t IH]; simpl.
  - split; [intros _ r []|intros _; reflexivity].
  - destruct (String.eqb_spec (tenantId x) tid) as [E|E].
    + split; [discriminate|]. intros H. exfalso. exact (H x (or_introl eq_refl) E).
    + rewrite IH. split.
      * intros H r [<-|Hr]; auto.
      * intros H r Hr. apply H. auto.
Qed.

Lemma findUnique_skip tid pre l :
  Forall (fun x => tenantId x <> tid) pre ->
  findUnique tid (pre ++ l) = findUnique tid l.
Proof.
  induction 1 as [|x pre Hx _ IH]; simpl; auto.
  destruct (String.eqb_spec (tenantId x) tid); [contradiction|exact IH].
Qed.

Lemma update_first_none tid f t :
  findUnique tid t = None -> update_first tid f t = None.
Proof.
  induction t as [|x t IH]; simpl; auto.
  destruct (String.eqb (tenantId x) tid); [discriminate|].
  intros H. rewrite (IH H). reflexivity.
Qed.

Lemma update_first_some tid f t r :
  findUnique tid t = Some r ->
  exists pre post, t = pre ++ r :: post /\
    Forall (fun x => tenantId x <> tid) pre /\
    update_first tid f t = Some (f r, pre ++ f r :: post).
Proof.
  induction t as [|x t IH]; simpl; [discriminate|].
  destruct (String.eqb_spec (tenantId x) tid) as [E|E].
  - intros [= <-]. exists [], t. auto.
  - intros H. destruct (IH H) as (pre & post & -> & Hpre & Hu).
    exists (x :: pre), post. rewrite Hu. auto.
Qed.

Lemma build_upsertData_tenant tid data :
  u_tenantId (build_upsertData tid data) = tid.
Proof.
  unfold build_upsertData. destruct (in_password data) as [p|]; simpl; auto.
  destruct (_ && _); reflexivity.
Qed.

Lemma apply_update_tenant tid data r :
  tenantId (apply_update (build_upsertData tid data) r) = tid.
Proof.
  unfold build_upsertData. destruct (in_password data) as [p|]; simpl; auto.
  destruct (_ && _); reflexivity.
Qed.

Lemma create_row_tenant tid data :
  tenantId (create_row (build_upsertData tid data) data) = tid.
Proof.
  unfold build_upsertData. destruct (in_password data) as [p|]; simpl; auto.
  destruct (_ && _); reflexivity.
Qed.

(** Upserting a tenant that already has a row updates that row in place. *)
Lemma upsert_found tid data t r0 :
  findUnique tid t = Some r0 ->
  exists pre post, t = pre ++ r0 :: post /\
    Forall (fun x => tenantId x <> tid) pre /\
    ZeusService.upsertCredentials tid data t =
      (apply_update (build_upsertData tid data) r0,
       pre ++ apply_update (build_upsertData tid data) r0 :: post).
Proof.
  intros H. destruct (update_first_some tid (apply_update (build_upsertData tid data)) t r0 H)
    as (pre & post & Ht & Hpre & Hu).
  exists pre, post. unfold ZeusService.upsertCredentials. rewrite Hu. auto.
Qed.

(** Upserting a tenant without a row appends one new row. *)
Lemma upsert_new tid data t :
  findUnique tid t = None ->
  ZeusService.upsertCredentials tid data t =
    (create_row (build_upsertData tid data) data,
     t ++ [create_row (build_upsertData tid data) data]).
Proof.
  intros H. unfold ZeusService.upsertCredentials.
  rewrite (update_first_none _ _ _ H). reflexivity.
Qed.

(** After an upsert, the tenant's row is the one the upsert returned. *)
Lemma upsert_findUnique tid data t :
  findUnique tid (snd (ZeusService.upsertCredentials tid data t)) =
  Some (fst (ZeusService.upsertCredentials tid data t)).
Proof.
  destruct (findUnique tid t) as [r0|] eqn:F.
  - destruct (upsert_found tid data t r0 F) as (pre & post & _ & Hpre & ->). simpl.
    rewrite findUnique_skip by exact Hpre. simpl.
    rewrite build_upsertData_tenant, String.eqb_refl. reflexivity.
  - rewrite (upsert_new _ _ _ F). simpl.
    assert (Forall (fun x => tenantId x <> tid) t) as Hall.
    { apply Forall_forall. apply findUnique_none. exact F. }
    rewrite findUnique_skip by exact Hall. simpl.
    rewrite build_upsertData_tenant, String.eqb_refl. reflexivity.
Qed.

Lemma unique_append tid t r :
  unique_tenants t -> findUnique tid t = None -> tenantId r = tid ->
  unique_tenants (t ++ [r]).
Proof.
  unfold unique_tenants. intros Hu Hn Hr.
  rewrite map_app. simpl.
  eapply Permutation_NoDup.
  - apply Permutation_cons_append.
  - constructor; [|exact Hu].
    rewrite in_map_iff. intros (x & Hx & Hin).
    apply (proj1 (findUnique_none tid t) Hn x Hin). congruence.
Qed.

Lemma unique_replace pre post r0 r :
  tenantId r = tenantId r0 ->
  unique_tenants (pre ++ r0 :: post) -> unique_tenants (pre ++ r :: post).
Proof.
  unfold unique_tenants. rewrite !map_app. simpl. intros -> H. exact H.
Qed.

Lemma unique_filter (p : CredentialsZeus -> bool) t :
  unique_tenants t -> unique_tenants (filter p t).
Proof.
  unfold unique_tenants.
  induction t as [|x t IH]; simpl; auto.
  intros H. apply NoDup_cons_iff in H as [Hx Ht].
  destruct (p x); simpl; auto.
  constructor; auto.
  rewrite in_map_iff. intros (y & Hy & Hin). apply filter_In in Hin as [Hin _].
  apply Hx. rewrite <- Hy. apply in_map. exact Hin.
Qed.

Lemma count_zero tid t :
  (forall r, In r t -> tenantId r <> tid) -> count_tenant tid t = 0%nat.
Proof.
  unfold count_tenant. induction t as [|x t IH]; simpl; auto.
  intros H. destruct (String.eqb_spec (tenantId x) tid) as [E|E].
  - exfalso. exact (H x (or_introl eq_refl) E).
  - apply IH. auto.
Qed.

Lemma count_one tid t r :
  unique_tenants t -> findUnique tid t = Some r -> count_tenant tid t = 1%nat.
Proof.
  unfold unique_tenants, count_tenant. induction t as [|x t IH]; simpl; [discriminate|].
  intros H. apply NoDup_cons_iff in H as [Hx Ht].
  destruct (String.eqb_spec (tenantId x) tid) as [E|E].
  - intros _. simpl. f_equal. apply count_zero.
    intros y Hy Ey. apply Hx. rewrite E, <- Ey. apply in_map. exact Hy.
  - apply IH. exact Ht.
Qed.

Lemma upsert_unique tid data t :
  unique_tenants t -> unique_tenants (snd (ZeusService.upsertCredentials tid data t)).
Proof.
  intros Hu. destruct (findUnique tid t) as [r0|] eqn:F.
  - destruct (upsert_found tid data t r0 F) as (pre & post & Ht & _ & ->). simpl.
    subst t. apply (unique_replace pre post r0); [|exact Hu].
    rewrite apply_update_tenant. symmetry. exact (proj2 (findUnique_some _ _ _ F)).
  - rewrite (upsert_new _ _ _ F). simpl.
    apply (unique_append tid); auto. apply create_row_tenant.
Qed.

Lemma reachable_unique t : reachable t -> unique_tenants t.
Proof.
  induction 1 as [|req t _ IH|req t _ IH|req t _ IH].
  - constructor.
  - unfold ZeusController.getCredentials.
    destruct (resolved_tenant req); exact IH.
  - unfold ZeusController.saveCredentials.
    destruct (resolved_tenant req) as [tid|]; [|exact IH].
    destruct (Schema.safeParse (req_body req)) as [[data|errs]|e]; try exact IH.
    pose proof (upsert_unique tid data t IH) as H.
    destruct (ZeusService.upsertCredentials tid data t) as [c t']. exact H.
  - unfold ZeusController.deleteCredentials.
    destruct (resolved_tenant req) as [tid|]; [|exact IH].
    apply unique_filter. exact IH.
Qed.

(** C6. At most one credential row per tenant at any time: in every table
    reachable from the empty one through the controller, tenant ids are
    pairwise distinct. A save for a tenant without a row appends exactly one
    row, whose password defaults to the empty string when none is given; a
    save for a tenant with a row replaces that row in place, and afterwards
    the tenant still has exactly one row. *)
Theorem upsert_one_record_per_tenant t :
  reachable t ->
  unique_tenants t /\
  forall tid data,
    let (r, t') := ZeusService.upsertCredentials tid data t in
    unique_tenants t' /\ count_tenant tid t' = 1%nat /\ findUnique tid t' = Some r /\
    (findUnique tid t = None ->
       t' = t ++ [r] /\
       password r = match in_password data with Some p => p | None => "" end) /\
    (forall r0, findUnique tid t = Some r0 ->
       exists pre post, t = pre ++ r0 :: post /\ t' = pre ++ r :: post).
Proof.
  intros Hreach. pose proof (reachable_unique t Hreach) as Hu.
  split; [exact Hu|]. intros tid data.
  pose proof (upsert_unique tid data t Hu) as Hu'.
  pose proof (upsert_findUnique tid data t) as Hf.
  destruct (findUnique tid t) as [r0|] eqn:F.
  - destruct (upsert_found tid data t r0 F) as (pre & post & Ht & _ & Hup).
    rewrite Hup in *. simpl in *.
    split; [exact Hu'|]. split; [exact (count_one _ _ _ Hu' Hf)|].
    split; [exact Hf|]. split; [discriminate|].
    intros r1 [= <-]. exists pre, post. auto.
  - rewrite (upsert_new _ _ _ F) in *. simpl in *.
    split; [exact Hu'|]. split; [exact (count_one _ _ _ Hu' Hf)|].
    split; [exact Hf|]. split; [|discriminate].
    intros _. split; [reflexivity|].
    unfold create_row. simpl. destruct (in_password data) as [p|]; auto.
    destruct (String.eqb_spec p ""); auto.
Qed.

(* ------------------------------------------------------------------ *)
(** ** Redaction on read *)

Lemma lookup_key_app k l1 l2 :
  lookup_key k (l1 ++ l2) =
  match lookup_key k l1 with Some v => Some v | None => lookup_key k l2 end.
Proof.
  induction l1 as [|[k' v] l1 IH]; simpl; auto.
  destruct (String.eqb k k'); auto.
Qed.

Lemma lookup_key_omit k k' kvs :
  lookup_key k (omit_key k' kvs) =
  if String.eqb k k' then None else lookup_key k kvs.
Proof.
  unfold omit_key. induction kvs as [|[k0 v] kvs IH]; simpl.
  - destruct (String.eqb k k'); auto.
  - destruct (String.eqb_spec k' k0) as [E|E]; simpl.
    + subst k0. rewrite IH. destruct (String.eqb_spec k k'); auto.
    + destruct (String.eqb_spec k k0) as [E'|E']; auto.
      subst k0. destruct (String.eqb_spec k k'); [congruence|reflexivity].
Qed.

Lemma findUnique_same_but_password tid t t' :
  Forall2 same_but_password t t' ->
  match findUnique tid t, findUnique tid t' with
  | Some r, Some r' => same_but_password r r'
  | None, None => True
  | _, _ => False
  end.
Proof.
  induction 1 as [|x x' t t' Hx _ IH]; simpl; auto.
  pose proof Hx as (Et & _). rewrite Et.
  destruct (String.eqb (tenantId x') tid); auto.
Qed.

Lemma hasPassword_value pw :
  negb (String.eqb pw "") && (0 <? String.length pw)%nat = negb (String.eqb pw "").
Proof.
  destruct pw as [|c pw]; reflexivity.
Qed.

Lemma getCredentials_found tid t0 r :
  findUnique tid t0 = Some r ->
  exists kvs, ZeusService.getCredentials tid t0 = Some (JObj kvs) /\
    lookup_key "password" kvs = None /\
    lookup_key "hasPassword" kvs =
      Some (JBool (negb (String.eqb (password r) ""))) /\
    (forall k, k <> "password" -> k <> "hasPassword" ->
       lookup_key k kvs = lookup_key k (credentials_json r)).
Proof.
  intros F. unfold ZeusService.getCredentials. rewrite F.
  eexists. split; [reflexivity|]. cbv zeta.
  split; [|split; [|intros k Hk1 Hk2]];
    rewrite lookup_key_app, lookup_key_omit.
  - reflexivity.
  - simpl. rewrite hasPassword_value. reflexivity.
  - destruct (String.eqb_spec k "password") as [E|_]; [contradiction|].
    destruct (lookup_key k (credentials_json r)) eqn:L; auto.
    simpl. destruct (String.eqb_spec k "hasPassword"); [contradiction|reflexivity].
Qed.

(** C2. The read returns [null] exactly when the tenant has no row;
    otherwise an object with every stored field but [password] (same
    values), no [password] key, and [hasPassword] true iff the stored
    password is non-empty.  The read never depends on the password itself:
    two tables that differ only in the (non-)empty passwords give the same
    response, so no password value can be recovered from it; in particular
    a read after saving a non-empty password reports [hasPassword: true]. *)
Theorem getCredentials_redacted tid t :
  (ZeusService.getCredentials tid t = None <->
     (forall r, In r t -> tenantId r <> tid)) /\
  (forall r, findUnique tid t = Some r ->
     exists kvs, ZeusService.getCredentials tid t = Some (JObj kvs) /\
       lookup_key "password" kvs = None /\
       lookup_key "hasPassword" kvs =
         Some (JBool (negb (String.eqb (password r) ""))) /\
       (forall k, k <> "password" -> k <> "hasPassword" ->
          lookup_key k kvs = lookup_key k (credentials_json r))) /\
  (forall t', Forall2 same_but_password t t' ->
     ZeusService.getCredentials tid t = ZeusService.getCredentials tid t') /\
  (forall data p, in_password data = Some p -> p <> "" ->
     exists kvs,
       ZeusService.getCredentials tid
         (snd (ZeusService.upsertCredentials tid data t)) = Some (JObj kvs) /\
       lookup_key "hasPassword" kvs = Some (JBool true)).
Proof.
  split; [|split; [exact (getCredentials_found tid t)|split]].
  - unfold ZeusService.getCredentials. rewrite <- findUnique_none.
    destruct (findUnique tid t); split; congruence.
  - intros t' H. pose proof (findUnique_same_but_password tid t t' H) as Hf.
    unfold ZeusService.getCredentials.
    destruct (findUnique tid t) as [r|], (findUnique tid t') as [r'|];
      try contradiction; auto.
    destruct Hf as (E1 & E2 & E3 & E4 & E5 & E6).
    destruct r, r'; simpl in *. subst.
    rewrite !hasPassword_value, E6. reflexivity.
  - intros data p Hp Hne.
    pose proof (upsert_findUnique tid data t) as Hf.
    destruct (getCredentials_found _ _ _ Hf) as (kvs & Hg & _ & Hh & _).
    exists kvs. split; [exact Hg|]. rewrite Hh.
    assert (Hpw : password (fst (ZeusService.upsertCredentials tid data t)) = p).
    { destruct (findUnique tid t) as [r0|] eqn:F.
      - destruct (upsert_found tid data t r0 F) as (pre & post & _ & _ & ->). simpl.
        unfold build_upsertData. rewrite Hp. simpl.
        destruct p as [|c p]; [contradiction|reflexivity].
      - rewrite (upsert_new _ _ _ F). simpl. unfold create_row. rewrite Hp.
        destruct (String.eqb_spec p ""); [contradiction|reflexivity]. }
    rewrite Hpw. destruct (String.eqb_spec p ""); [contradiction|reflexivity].
Qed.

(** C3. For a tenant whose row has a non-empty password, an upsert whose
    input omits the password or gives [""] updates host, port, database
    name and username and keeps the stored password, so a later read still
    reports [hasPassword: true]. *)
Theorem upsert_keeps_password tid data t r0 :
  findUnique tid t = Some r0 -> password r0 <> "" ->
  (in_password data = None \/ in_password data = Some "") ->
  findUnique tid (snd (ZeusService.upsertCredentials tid data t)) =
    Some (mkCredentialsZeus tid (in_host data) (in_port data)
            (in_databaseName data) (in_username data) (password r0)) /\
  exists kvs,
    ZeusService.getCredentials tid (snd (ZeusService.upsertCredentials tid data t))
      = Some (JObj kvs) /\
    lookup_key "hasPassword" kvs = Some (JBool true).
Proof.
  intros F Hpw Hin.
  assert (Hrow : findUnique tid (snd (ZeusService.upsertCredentials tid data t)) =
    Some (mkCredentialsZeus tid (in_host data) (in_port data)
            (in_databaseName data) (in_username data) (password r0))).
  { rewrite upsert_findUnique.
    destruct (upsert_found tid data t r0 F) as (pre & post & _ & _ & ->). simpl.
    unfold build_upsertData. destruct Hin as [-> | ->]; reflexivity. }
  split; [exact Hrow|].
  destruct (getCredentials_found _ _ _ Hrow)
    as (kvs & Hg & _ & Hh & _).
  exists kvs. split; [exact Hg|]. rewrite Hh. simpl.
  destruct (String.eqb_spec (password r0) ""); [contradiction|reflexivity].
Qed.

(* ------------------------------------------------------------------ *)
(** ** Tenant isolation *)

Lemma rows_of_app B l1 l2 :
  rows_of B (l1 ++ l2) = rows_of B l1 ++ rows_of B l2.
Proof. unfold rows_of. apply filter_app. Qed.

Lemma rows_of_single A B r :
  tenantId r = A -> A <> B -> rows_of B [r] = [].
Proof.
  intros Hr HAB. unfold rows_of. simpl. rewrite Hr.
  destruct (String.eqb_spec A B); [contradiction|reflexivity].
Qed.

Lemma findUnique_rows_of tid t :
  findUnique tid t = findUnique tid (rows_of tid t).
Proof.
  unfold rows_of. induction t as [|x t IH]; simpl; auto.
  destruct (String.eqb (tenantId x) tid) eqn:E; simpl; [rewrite E|]; auto.
Qed.

Lemma rows_of_delete A B t :
  A <> B -> rows_of B (ZeusService.deleteCredentials A t) = rows_of B t.
Proof.
  intros HAB. unfold rows_of, ZeusService.deleteCredentials.
  induction t as [|x t IH]; simpl; auto.
  destruct (String.eqb_spec (tenantId x) A) as [E|E]; simpl.
  - rewrite IH. destruct (String.eqb_spec (tenantId x) B); [congruence|reflexivity].
  - destruct (String.eqb (tenantId x) B); simpl; rewrite IH; reflexivity.
Qed.

(** C10. For distinct tenants [A] and [B]: an upsert or a delete for [A]
    leaves [B]'s rows as they were, and what a read or an upsert for [A]
    returns is computed from [A]'s rows alone. *)
Theorem tenant_isolation A B data t :
  A <> B ->
  rows_of B (snd (ZeusService.upsertCredentials A data t)) = rows_of B t /\
  rows_of B (ZeusService.deleteCredentials A t) = rows_of B t /\
  ZeusService.getCredentials A t = ZeusService.getCredentials A (rows_of A t) /\
  fst (ZeusService.upsertCredentials A data t) =
    fst (ZeusService.upsertCredentials A data (rows_of A t)).
Proof.
  intros HAB. split; [|split; [apply rows_of_delete; exact HAB|split]].
  - destruct (findUnique A t) as [r0|] eqn:F.
    + destruct (upsert_found A data t r0 F) as (pre & post & Ht & _ & ->). simpl.
      subst t. rewrite !rows_of_app.
      change (r0 :: post) with ([r0] ++ post).
      change (apply_update (build_upsertData A data) r0 :: post)
        with ([apply_update (build_upsertData A data) r0] ++ post).
      rewrite !rows_of_app.
      rewrite (rows_of_single A B r0), (rows_of_single A B); auto.
      * apply apply_update_tenant.
      * exact (proj2 (findUnique_some _ _ _ F)).
    + rewrite (upsert_new _ _ _ F). simpl.
      rewrite rows_of_app.
      rewrite (rows_of_single A B); [apply app_nil_r|apply create_row_tenant|exact HAB].
  - unfold ZeusService.getCredentials. rewrite <- findUnique_rows_of. reflexivity.
  - pose proof (findUnique_rows_of A t) as E.
    destruct (findUnique A t) as [r0|] eqn:F.
    + destruct (upsert_found A data t r0 F) as (pre & post & _ & _ & ->).
      symmetry in E.
      destruct (upsert_found A data (rows_of A t) r0 E) as (pre' & post' & _ & _ & ->).
      reflexivity.
    + symmetry in E. rewrite (upsert_new _ _ _ F), (upsert_new _ _ _ E). reflexivity.
Qed.

(* ------------------------------------------------------------------ *)
(** ** Controller *)

Lemma resolved_some tid b :
  tid <> "" -> resolved_tenant (mkRequest (Some tid) b) = Some tid.
Proof.
  intros H. unfold resolved_tenant. simpl.
  destruct (String.eqb_spec tid ""); [contradiction|reflexivity].
Qed.

Lemma delete_findUnique tid t :
  findUnique tid (ZeusService.deleteCredentials tid t) = None.
Proof.
  apply findUnique_none. intros r Hr.
  unfold ZeusService.deleteCredentials in Hr. apply filter_In in Hr as [_ Hr].
  destruct (String.eqb_spec (tenantId r) tid); [discriminate|assumption].
Qed.

(** A save with a non-empty password stores exactly the submitted fields. *)
Lemma upsert_row_new_password tid data t p :
  in_password data = Some p -> p <> "" ->
  fst (ZeusService.upsertCredentials tid data t) =
    mkCredentialsZeus tid (in_host data) (in_port data) (in_databaseName data)
      (in_username data) p.
Proof.
  intros Hp Hne. destruct (findUnique tid t) as [r0|] eqn:F.
  - destruct (upsert_found tid data t r0 F) as (pre & post & _ & _ & ->). simpl.
    unfold build_upsertData. rewrite Hp.
    destruct p as [|c p]; [contradiction|reflexivity].
  - rewrite (upsert_new _ _ _ F). unfold create_row, build_upsertData. simpl. rewrite Hp.
    destruct p as [|c p]; [contradiction|reflexivity].
Qed.


(** C5. For a resolved tenant, deleting succeeds (200, [success: true])
    whether or not a row exists, twice in a row as well, and a read after a
    delete returns [data: null]. *)
Theorem delete_idempotent tid b t :
  tid <> "" ->
  let req := mkRequest (Some tid) b in
  let (resp1, t1) := ZeusController.deleteCredentials req t in
  let (resp2, t2) := ZeusController.deleteCredentials req t1 in
  status resp1 = 200%Z /\ get_field "success" (body resp1) = Some (JBool true) /\
  status resp2 = 200%Z /\ get_field "success" (body resp2) = Some (JBool true) /\
  fst (ZeusController.getCredentials req t1) = read_null /\
  fst (ZeusController.getCredentials req t2) = read_null.
Proof.
  intros H. cbv zeta.
  unfold ZeusController.deleteCredentials, ZeusController.getCredentials.
  rewrite !(resolved_some tid b H). simpl.
  unfold ZeusService.getCredentials. rewrite !delete_findUnique.
  repeat split; reflexivity.
Qed.

(** C7. When the request has no tenant id ([undefined] or [""]), each of
    the three handlers answers 400 and leaves the table untouched. *)
Theorem missing_tenant_rejected req t :
  req_tenantId req = None \/ req_tenantId req = Some "" ->
  status tenant_missing = 400%Z /\
  ZeusController.getCredentials req t = (tenant_missing, t) /\
  ZeusController.saveCredentials req t = (tenant_missing, t) /\
  ZeusController.deleteCredentials req t = (tenant_missing, t).
Proof.
  intros H.
  assert (R : resolved_tenant req = None).
  { unfold resolved_tenant. destruct H as [-> | ->]; reflexivity. }
  unfold ZeusController.getCredentials, ZeusController.saveCredentials,
    ZeusController.deleteCredentials.
  rewrite R. auto.
Qed.


Lemma e2e_body_parse :
  Schema.safeParse e2e_body =
  Zod.Returned (Schema.SPSuccess (mkInput "10.0.0.1" 3050 "DB.FDB" "SYSDBA" (Some "pw"))).
Proof. reflexivity. Qed.

(** C8. POST of the sample credentials, then GET: host, port, database
    name, username as sent, [hasPassword: true] and no [password] key;
    then DELETE, then GET: [data: null]. *)
Theorem e2e_round_trip tid t :
  tid <> "" ->
  let req := mkRequest (Some tid) in
  let (r1, t1) := ZeusController.saveCredentials (req e2e_body) t in
  let (r2, t2) := ZeusController.getCredentials (req JNull) t1 in
  let (r3, t3) := ZeusController.deleteCredentials (req JNull) t2 in
  let (r4, t4) := ZeusController.getCredentials (req JNull) t3 in
  status r1 = 200%Z /\ status r2 = 200%Z /\
  (exists d, get_field "data" (body r2) = Some (JObj d) /\
     lookup_key "host" d = Some (JStr "10.0.0.1") /\
     lookup_key "port" d = Some (JNum 3050) /\
     lookup_key "databaseName" d = Some (JStr "DB.FDB") /\
     lookup_key "username" d = Some (JStr "SYSDBA") /\
     lookup_key "hasPassword" d = Some (JBool true) /\
     lookup_key "password" d = None) /\
  status r3 = 200%Z /\ status r4 = 200%Z /\ get_field "data" (body r4) = Some JNull.
Proof.
  intros H. cbv zeta.
  unfold ZeusController.saveCredentials. rewrite (resolved_some tid _ H). cbn [req_body]. rewrite e2e_body_parse.
  pose proof (upsert_findUnique tid
    (mkInput "10.0.0.1" 3050 "DB.FDB" "SYSDBA" (Some "pw")) t) as Hf.
  rewrite (upsert_row_new_password _ _ _ "pw") in Hf by (reflexivity || discriminate).
  destruct (ZeusService.upsertCredentials tid _ t) as [c t1]. simpl in Hf.
  unfold ZeusController.getCredentials, ZeusController.deleteCredentials.
  rewrite !(resolved_some tid _ H).
  destruct (getCredentials_found _ _ _ Hf) as (kvs & Hg & Hpw & Hh & Hk).
  rewrite Hg. unfold ZeusService.getCredentials. rewrite delete_findUnique. simpl.
  repeat split; try reflexivity.
  exists kvs. split; [reflexivity|].
  rewrite Hh, Hpw, !Hk by discriminate. repeat split; reflexivity.
Qed.

Lemma string_min1_nonempty pth msg s :
  s <> "" -> Zod.string_min1 pth msg (Some (JStr s)) = Zod.ZValid s.
Proof.
  intros H. unfold Zod.string_min1. destruct s as [|c s]; [contradiction|reflexivity].
Qed.

Lemma Qred_inject_Z p : Qred (inject_Z p) = inject_Z p.
Proof.
  unfold Qred, inject_Z. simpl Qnum. simpl Qden.
  pose proof (Z.ggcd_gcd p 1) as G. pose proof (Z.ggcd_correct_divisors p 1) as D.
  destruct (Z.ggcd p 1) as [g [aa bb]]. simpl in G |- *.
  rewrite Z.gcd_1_r in G. subst g. destruct D as [Da Db].
  rewrite Z.mul_1_l in Da, Db. subst. reflexivity.
Qed.

Lemma number_int_positive_Z pth msg p :
  (0 < p)%Z -> Zod.number_int_positive pth msg (Some (JNum (inject_Z p))) = Zod.ZValid p.
Proof.
  intros H. unfold Zod.number_int_positive, Zod.is_integer.
  rewrite Qred_inject_Z. simpl Qden. simpl Pos.eqb.
  destruct (Qle_bool (inject_Z p) 0) eqn:E.
  - apply Qle_bool_iff in E. unfold Qle in E. simpl in E. lia.
  - reflexivity.
Qed.


(** C9. The server puts no upper bound on the port: every integer [p > 0]
    (70000 included) passes [credentialsSchema] and is stored as given,
    although the client form's [zeusPort] check refuses anything above
    65535. *)
Theorem server_port_unbounded tid h d u p t :
  tid <> "" -> h <> "" -> d <> "" -> u <> "" -> (0 < p)%Z ->
  let req := mkRequest (Some tid) (port_payload h d u (JNum (inject_Z p))) in
  Schema.safeParse (req_body req) =
    Zod.Returned (Schema.SPSuccess (mkInput h p d u None)) /\
  status (fst (ZeusController.saveCredentials req t)) = 200%Z /\
  option_map port (findUnique tid (snd (ZeusController.saveCredentials req t))) = Some p /\
  ((65535 < p)%Z -> client_zeusPort_ok (inject_Z p) = false).
Proof.
  intros Ht Hh Hd Hu Hp. cbv zeta.
  assert (Hparse : Schema.safeParse (port_payload h d u (JNum (inject_Z p))) =
                   Zod.Returned (Schema.SPSuccess (mkInput h p d u None))).
  { unfold Schema.safeParse, Schema.credentialsSchema, port_payload.
    cbn [lookup_key String.eqb Ascii.eqb Bool.eqb].
    rewrite !string_min1_nonempty by assumption.
    unfold Schema.port_schema, Zod.union2, Schema.port_number_branch.
    rewrite number_int_positive_Z by exact Hp. reflexivity. }
  unfold ZeusController.saveCredentials. rewrite (resolved_some tid _ Ht).
  cbn [req_body]. rewrite Hparse.
  pose proof (upsert_findUnique tid (mkInput h p d u None) t) as Hf.
  destruct (ZeusService.upsertCredentials tid _ t) as [c t1] eqn:U.
  simpl. simpl in Hf. rewrite Hf. simpl.
  split; [reflexivity|]. split; [reflexivity|]. split.
  - destruct (findUnique tid t) as [r0|] eqn:F.
    + destruct (upsert_found tid (mkInput h p d u None) t r0 F)
        as (pre & post & _ & _ & U'). rewrite U in U'. injection U' as -> _. reflexivity.
    + rewrite (upsert_new _ _ _ F) in U. injection U as <- _. reflexivity.
  - intros Hbig. unfold client_zeusPort_ok.
    destruct (Qle_bool (inject_Z p) 65535) eqn:E.
    + apply Qle_bool_iff in E. unfold Qle in E. simpl in E. lia.
    + apply andb_false_r.
Qed.

(** C1 (the save path).  The POST handler relays the row returned by the
    upsert as [data] without redaction: for every table, saving the sample
    credentials for tenant "tenant-1" answers with a [data] object whose
    [password] key holds the raw password "pw". *)
Theorem save_relays_raw_password t :
  let (resp, _) := ZeusController.saveCredentials
                     (mkRequest (Some "tenant-1") e2e_body) t in
  status resp = 200%Z /\
  (exists d, get_field "data" (body resp) = Some (JObj d) /\
     lookup_key "password" d = Some (JStr "pw")) /\
  json_has_string "pw" (body resp) = true.
Proof.
  unfold ZeusController.saveCredentials. cbn [resolved_tenant req_tenantId String.eqb].
  cbn [req_body]. rewrite e2e_body_parse.
  pose proof (upsert_row_new_password "tenant-1"
    (mkInput "10.0.0.1" 3050 "DB.FDB" "SYSDBA" (Some "pw")) t "pw"
    eq_refl ltac:(discriminate)) as Hc.
  destruct (ZeusService.upsertCredentials _ _ t) as [c t1]. simpl in Hc. subst c.
  simpl. split; [reflexivity|]. split; [|reflexivity].
  eexists. split; reflexivity.
Qed.

Lemma save_success_port tid b data t :
  tid <> "" -> Schema.safeParse b = Zod.Returned (Schema.SPSuccess data) ->
  status (fst (ZeusController.saveCredentials (mkRequest (Some tid) b) t)) = 200%Z /\
  option_map port
    (findUnique tid (snd (ZeusController.saveCredentials (mkRequest (Some tid) b) t)))
  = Some (in_port data).
Proof.
  intros Ht Hb. unfold ZeusController.saveCredentials.
  rewrite (resolved_some tid _ Ht). cbn [req_body]. rewrite Hb.
  pose proof (upsert_findUnique tid data t) as Hf.
  destruct (ZeusService.upsertCredentials tid data t) as [c t1] eqn:U.
  simpl in Hf |- *. rewrite Hf. split; [reflexivity|]. simpl. f_equal.
  destruct (findUnique tid t) as [r0|] eqn:F.
  - destruct (upsert_found tid data t r0 F) as (pre & post & _ & _ & U').
    rewrite U in U'. injection U' as -> _. unfold build_upsertData.
    destruct (in_password data) as [p|]; [destruct (_ && _)|]; reflexivity.
  - rewrite (upsert_new _ _ _ F) in U. injection U as <- _. unfold build_upsertData.
    destruct (in_password data) as [p|]; [destruct (_ && _)|]; reflexivity.
Qed.


(** C4.  The numeric string "5432" is accepted and stored as 5432, but the
    string branch rejects "-1" and "abc" by throwing from inside the zod
    [transform]: [safeParse] does not catch it, the handler's [catch] does,
    and the answer is the generic 500, with no field errors and the table
    unchanged.  The number -1 takes the sibling path and gets the intended
    400 with the field error.  "12abc" passes as 12. *)
Theorem port_string_rejection_is_internal_error t :
  ZeusController.saveCredentials (port_request (JStr "-1")) t = (internal_error, t) /\
  ZeusController.saveCredentials (port_request (JStr "abc")) t = (internal_error, t) /\
  status internal_error = 500%Z /\
  ZeusController.saveCredentials (port_request (JNum (-1))) t =
    (mkResponse 400 (JObj [("success", JBool false);
                           ("message", JStr "Dados inválidos");
                           ("errors", JArr [issue_json
                              (Zod.mkIssue "port" Schema.msg_port_positive)])]), t) /\
  status (fst (ZeusController.saveCredentials (port_request (JStr "5432")) t)) = 200%Z /\
  option_map port (findUnique "tenant-1"
    (snd (ZeusController.saveCredentials (port_request (JStr "5432")) t))) = Some 5432%Z /\
  Schema.safeParse (port_payload "h" "d" "u" (JStr "12abc")) =
    Zod.Returned (Schema.SPSuccess (mkInput "h" 12 "d" "u" None)).
Proof.
  split; [reflexivity|]. split; [reflexivity|]. split; [reflexivity|].
  split; [reflexivity|].
  destruct (save_success_port "tenant-1" (port_payload "h" "d" "u" (JStr "5432"))
              (mkInput "h" 5432 "d" "u" None) t ltac:(discriminate) eq_refl) as [H1 H2].
  split; [exact H1|]. split; [exact H2|]. reflexivity.
Qed.

(* ------------------------------------------------------------------ *)
(** ** Witnesses: the hypotheses of the theorems above are satisfiable *)



Lemma upsert_keeps_password_witness :
  findUnique "tenant-1" [sample_row] = Some sample_row /\
  password sample_row <> "" /\
  (findUnique "tenant-1" (snd (ZeusService.upsertCredentials "tenant-1" sample_input [sample_row])) =
    Some (mkCredentialsZeus "tenant-1" "10.0.0.2" 5432 "NEW.FDB" "ADMIN" "secret") /\
  exists kvs,
    ZeusService.getCredentials "tenant-1"
      (snd (ZeusService.upsertCredentials "tenant-1" sample_input [sample_row]))
      = Some (JObj kvs) /\
    lookup_key "hasPassword" kvs = Some (JBool true)).
Proof.
  split; [reflexivity|]. split; [discriminate|].
  apply (upsert_keeps_password "tenant-1" sample_input [sample_row] sample_row).
  - reflexivity.
  - discriminate.
  - left. reflexivity.
Defined.

Lemma delete_idempotent_witness :
  "tenant-1" <> "" /\
  (let req := mkRequest (Some "tenant-1") JNull in
   let (resp1, t1) := ZeusController.deleteCredentials req [sample_row] in
   let (resp2, t2) := ZeusController.deleteCredentials req t1 in
   status resp1 = 200%Z /\ get_field "success" (body resp1) = Some (JBool true) /\
   status resp2 = 200%Z /\ get_field "success" (body resp2) = Some (JBool true) /\
   fst (ZeusController.getCredentials req t1) = read_null /\
   fst (ZeusController.getCredentials req t2) = read_null).
Proof.
  split; [discriminate|].
  apply (delete_idempotent "tenant-1" JNull [sample_row]). discriminate.
Defined.

Lemma upsert_one_record_per_tenant_witness :
  reachable [] /\ unique_tenants [] /\
  (let (r, t') := ZeusService.upsertCredentials "tenant-1" sample_input [] in
   unique_tenants t' /\ count_tenant "tenant-1" t' = 1%nat /\
   findUnique "tenant-1" t' = Some r /\
   (findUnique "tenant-1" [] = None ->
      t' = [] ++ [r] /\
      password r = match in_password sample_input with Some p => p | None => "" end) /\
   (forall r0, findUnique "tenant-1" [] = Some r0 ->
      exists pre post, [] = pre ++ r0 :: post /\ t' = pre ++ r :: post)).
Proof.
  split; [constructor|].
  destruct (upsert_one_record_per_tenant [] reach_init) as [Hu Hs].
  split; [exact Hu|]. apply Hs.
Defined.

Lemma missing_tenant_rejected_witness :
  (req_tenantId (mkRequest None JNull) = None \/
   req_tenantId (mkRequest None JNull) = Some "") /\
  status tenant_missing = 400%Z /\
  ZeusController.getCredentials (mkRequest None JNull) [sample_row] = (tenant_missing, [sample_row]) /\
  ZeusController.saveCredentials (mkRequest None JNull) [sample_row] = (tenant_missing, [sample_row]) /\
  ZeusController.deleteCredentials (mkRequest None JNull) [sample_row] = (tenant_missing, [sample_row]).
Proof.
  split; [left; reflexivity|].
  apply (missing_tenant_rejected (mkRequest None JNull) [sample_row]). left. reflexivity.
Defined.

Lemma e2e_round_trip_witness :
  "tenant-1" <> "" /\
  (let req := mkRequest (Some "tenant-1") in
   let (r1, t1) := ZeusController.saveCredentials (req e2e_body) [sample_row] in
   let (r2, t2) := ZeusController.getCredentials (req JNull) t1 in
   let (r3, t3) := ZeusController.deleteCredentials (req JNull) t2 in
   let (r4, t4) := ZeusController.getCredentials (req JNull) t3 in
   status r1 = 200%Z /\ status r2 = 200%Z /\
   (exists d, get_field "data" (body r2) = Some (JObj d) /\
      lookup_key "host" d = Some (JStr "10.0.0.1") /\
      lookup_key "port" d = Some (JNum 3050) /\
      lookup_key "databaseName" d = Some (JStr "DB.FDB") /\
      lookup_key "username" d = Some (JStr "SYSDBA") /\
      lookup_key "hasPassword" d = Some (JBool true) /\
      lookup_key "password" d = None) /\
   status r3 = 200%Z /\ status r4 = 200%Z /\ get_field "data" (body r4) = Some JNull).
Proof.
  split; [discriminate|].
  apply (e2e_round_trip "tenant-1" [sample_row]). discriminate.
Defined.

Lemma server_port_unbounded_witness :
  (0 < 70000)%Z /\
  (let req := mkRequest (Some "tenant-1")
                (port_payload "10.0.0.1" "DB.FDB" "SYSDBA" (JNum (inject_Z 70000))) in
   Schema.safeParse (req_body req) =
     Zod.Returned (Schema.SPSuccess (mkInput "10.0.0.1" 70000 "DB.FDB" "SYSDBA" None)) /\
   status (fst (ZeusController.saveCredentials req [])) = 200%Z /\
   option_map port (findUnique "tenant-1" (snd (ZeusController.saveCredentials req [])))
     = Some 70000%Z /\
   ((65535 < 70000)%Z -> client_zeusPort_ok (inject_Z 70000) = false)).
Proof.
  split; [lia|].
  apply (server_port_unbounded "tenant-1" "10.0.0.1" "DB.FDB" "SYSDBA" 70000 []);
    (discriminate || lia).
Defined.

Lemma tenant_isolation_witness :
  "tenant-1" <> "tenant-2" /\
  (let t := [sample_row; mkCredentialsZeus "tenant-2" "h2" 1 "D2" "U2" "pw2"] in
   rows_of "tenant-2" (snd (ZeusService.upsertCredentials "tenant-1" sample_input t))
     = rows_of "tenant-2" t /\
   rows_of "tenant-2" (ZeusService.deleteCredentials "tenant-1" t) = rows_of "tenant-2" t /\
   ZeusService.getCredentials "tenant-1" t
     = ZeusService.getCredentials "tenant-1" (rows_of "tenant-1" t) /\
   fst (ZeusService.upsertCredentials "tenant-1" sample_input t) =
     fst (ZeusService.upsertCredentials "tenant-1" sample_input (rows_of "tenant-1" t))).
Proof.
  split; [discriminate|].
  apply (tenant_isolation "tenant-1" "tenant-2" sample_input). discriminate.
Defined.

(* ------------------------------------------------------------------ *)
(** ** Further properties of the service *)

Lemma apply_update_result tid data t :
  apply_update (build_upsertData tid data) (fst (ZeusService.upsertCredentials tid data t))
  = fst (ZeusService.upsertCredentials tid data t).
Proof.
  destruct (findUnique tid t) as [r0|] eqn:F.
  - destruct (upsert_found tid data t r0 F) as (pre & post & _ & _ & ->). simpl.
    unfold apply_update. simpl. destruct (u_password _); reflexivity.
  - rewrite (upsert_new _ _ _ F). simpl.
    unfold build_upsertData, apply_update, create_row.
    destruct (in_password data) as [p|]; simpl; [|reflexivity].
    destruct p as [|c p]; reflexivity.
Qed.

(** Saving the same input twice for a tenant leaves the table exactly as
    saving it once. *)
Theorem upsert_twice_same_table tid data t :
  snd (ZeusService.upsertCredentials tid data (snd (ZeusService.upsertCredentials tid data t)))
  = snd (ZeusService.upsertCredentials tid data t).
Proof.
  pose proof (upsert_findUnique tid data t) as Hf.
  pose proof (apply_update_result tid data t) as Hfix.
  destruct (ZeusService.upsertCredentials tid data t) as [r t1] eqn:U. simpl in *.
  destruct (upsert_found tid data t1 r Hf) as (pre & post & Ht1 & _ & ->). simpl.
  rewrite Hfix. symmetry. exact Ht1.
Qed.

(** Deleting a tenant's credentials after a save gives the same table as
    deleting them without the save: a delete leaves nothing of the save. *)
Theorem delete_after_upsert tid data t :
  ZeusService.deleteCredentials tid (snd (ZeusService.upsertCredentials tid data t))
  = ZeusService.deleteCredentials tid t.
Proof.
  unfold ZeusService.deleteCredentials.
  destruct (findUnique tid t) as [r0|] eqn:F.
  - destruct (upsert_found tid data t r0 F) as (pre & post & -> & _ & ->). simpl.
    rewrite !filter_app. simpl.
    rewrite build_upsertData_tenant, (proj2 (findUnique_some _ _ _ F)), String.eqb_refl.
    reflexivity.
  - rewrite (upsert_new _ _ _ F). simpl. rewrite filter_app. simpl.
    rewrite build_upsertData_tenant, String.eqb_refl. apply app_nil_r.
Qed.

(** After a save, the read reports [hasPassword: true] exactly when the save
    carried a non-empty password or the tenant's previous row already had
    one: a save never clears a stored password. *)
Theorem hasPassword_after_upsert tid data t :
  exists kvs,
    ZeusService.getCredentials tid (snd (ZeusService.upsertCredentials tid data t))
      = Some (JObj kvs) /\
    lookup_key "hasPassword" kvs =
      Some (JBool (truthy_opt_string (in_password data) ||
                   match findUnique tid t with
                   | Some r0 => negb (String.eqb (password r0) "")
                   | None => false
                   end)).
Proof.
  destruct (getCredentials_found _ _ _ (upsert_findUnique tid data t))
    as (kvs & Hg & _ & Hh & _).
  exists kvs. split; [exact Hg|]. rewrite Hh. do 2 f_equal.
  destruct (findUnique tid t) as [r0|] eqn:F.
  - destruct (upsert_found tid data t r0 F) as (pre & post & _ & _ & ->). simpl.
    unfold build_upsertData, truthy_opt_string.
    destruct (in_password data) as [[|c p]|]; simpl; reflexivity.
  - rewrite (upsert_new _ _ _ F). simpl. unfold create_row, truthy_opt_string.
    destruct (in_password data) as [[|c p]|]; simpl; reflexivity.
Qed.

(* ------------------------------------------------------------------ *)
(** ** Further properties of the schema and the controller *)

Lemma password_schema_returned j :
  exists r, Schema.password_schema j = Zod.Returned r.
Proof.
  unfold Schema.password_schema, Zod.union2, Schema.optional_string, Schema.literal_empty.
  destruct j as [[| b | q | s | xs | kvs]|]; simpl; eauto.
Qed.

(** What makes the port's string branch throw. *)
Lemma port_schema_throw j :
  (exists e, Schema.port_schema j = Zod.Thrown e) <-> port_string_throws j.
Proof.
  unfold port_string_throws, Schema.port_schema, Zod.union2,
    Schema.port_number_branch, Schema.port_string_branch.
  destruct j as [[| b | q | s | xs | kvs]|]; simpl;
    try (split; [intros (e & He); discriminate | intros (s' & Hs' & _); discriminate]).
  - destruct (Zod.is_integer q), (Qle_bool q 0); simpl;
      (split; [intros (e & He); discriminate | intros (s' & Hs' & _); discriminate]).
  - destruct s as [|c s']; simpl.
    + split; [intros (e & He); discriminate|].
      intros (s0 & [= <-] & Hne & _). contradiction.
    + destruct (JS.parseInt10 (String c s')) as [n|] eqn:P.
      * destruct (n <=? 0)%Z eqn:L; simpl.
        -- split; [intros _|intros _; eauto].
           exists (String c s'). split; [reflexivity|]. split; [discriminate|]. apply Z.leb_le in L. rewrite P. exact L.
        -- split; [intros (e & He); discriminate|].
           intros (s0 & [= <-] & _ & Hn). rewrite P in Hn. apply Z.leb_gt in L. lia.
      * simpl. split; [intros _|intros _; eauto].
        exists (String c s'). rewrite P. split; [reflexivity|]. split; [discriminate|exact I].
Qed.




Lemma save_status_frame req t :
  (status (fst (ZeusController.saveCredentials req t)) = 200%Z \/
   status (fst (ZeusController.saveCredentials req t)) = 400%Z \/
   status (fst (ZeusController.saveCredentials req t)) = 500%Z) /\
  (status (fst (ZeusController.saveCredentials req t)) <> 200%Z ->
   snd (ZeusController.saveCredentials req t) = t).
Proof.
  unfold ZeusController.saveCredentials.
  destruct (resolved_tenant req) as [tid|]; [|simpl; split; [auto|reflexivity]].
  destruct (Schema.safeParse (req_body req)) as [[data|errs]|e].
  - destruct (ZeusService.upsertCredentials tid data t). simpl.
    split; [auto|intros H; contradiction].
  - simpl. split; [auto|reflexivity].
  - simpl. split; [auto|reflexivity].
Qed.

(** The POST handler answers 200, 400 or 500, and it changes the table
    only when it answers 200. *)
Theorem save_changes_table_only_on_200 req t :
  (status (fst (ZeusController.saveCredentials req t)) = 200%Z \/
   status (fst (ZeusController.saveCredentials req t)) = 400%Z \/
   status (fst (ZeusController.saveCredentials req t)) = 500%Z) /\
  (snd (ZeusController.saveCredentials req t) <> t ->
   status (fst (ZeusController.saveCredentials req t)) = 200%Z).
Proof.
  destruct (save_status_frame req t) as [H1 H2]. split; [exact H1|].
  intros Hne. destruct (Z.eq_dec (status (fst (ZeusController.saveCredentials req t))) 200)
    as [E|E]; [exact E|]. exfalso. exact (Hne (H2 E)).
Qed.

Lemma save_parse_error tid b errs t :
  tid <> "" -> Schema.safeParse b = Zod.Returned (Schema.SPError errs) ->
  ZeusController.saveCredentials (mkRequest (Some tid) b) t =
    (mkResponse 400 (JObj [("success", JBool false);
                           ("message", JStr "Dados inválidos");
                           ("errors", JArr (map issue_json errs))]), t).
Proof.
  intros Ht Hb. unfold ZeusController.saveCredentials.
  rewrite (resolved_some tid b Ht). cbn [req_body]. rewrite Hb. reflexivity.
Qed.


Lemma port_not_string_returned kvs :
  (forall s, lookup_key "port" kvs <> Some (JStr s)) ->
  exists rp, Schema.port_schema (lookup_key "port" kvs) = Zod.Returned rp.
Proof.
  intros H.
  destruct (Schema.port_schema (lookup_key "port" kvs)) as [rp|e] eqn:P; eauto.
  exfalso. destruct (proj1 (port_schema_throw _) (ex_intro _ e P)) as (s & Hs & _).
  exact (H s Hs).
Qed.

Lemma safeParse_error_of kvs rp rw :
  Schema.port_schema (lookup_key "port" kvs) = Zod.Returned rp ->
  Schema.password_schema (lookup_key "password" kvs) = Zod.Returned rw ->
  Schema.is_valid rp = false \/ Schema.is_valid rw = false ->
  exists errs, Schema.safeParse (JObj kvs) = Zod.Returned (Schema.SPError errs).
Proof.
  intros P W H. unfold Schema.safeParse, Schema.credentialsSchema.
  rewrite P. simpl. rewrite W. simpl.
  destruct (Zod.string_min1 "host" _ _), (Zod.string_min1 "databaseName" _ _),
    (Zod.string_min1 "username" _ _);
    destruct rp, rw; simpl in H; try (destruct H; discriminate); simpl; eauto.
Qed.

(** A [password] sent as [null] is refused with 400 (it is neither a string,
    nor absent, nor [""]) when the port is not a string, whatever the other
    fields hold; the table is untouched. *)
Theorem save_null_password tid kvs t :
  tid <> "" -> lookup_key "password" kvs = Some JNull ->
  (forall s, lookup_key "port" kvs <> Some (JStr s)) ->
  status (fst (ZeusController.saveCredentials (mkRequest (Some tid) (JObj kvs)) t)) = 400%Z /\
  snd (ZeusController.saveCredentials (mkRequest (Some tid) (JObj kvs)) t) = t.
Proof.
  intros Ht Hw Hp.
  destruct (port_not_string_returned kvs Hp) as (rp & P).
  assert (W : Schema.password_schema (lookup_key "password" kvs) =
              Zod.Returned (Zod.ZInvalid [Zod.mkIssue "password" "Invalid input"]))
    by (rewrite Hw; reflexivity).
  destruct (safeParse_error_of kvs rp _ P W (or_intror eq_refl)) as (errs & E).
  rewrite (save_parse_error tid _ errs t Ht E). split; reflexivity.
Qed.

(** A numeric [port] that is not an integer or not positive is refused with
    400 (it goes through the number branch and never throws), whatever the
    other fields hold; the table is untouched. *)
Theorem save_bad_number_port tid kvs q t :
  tid <> "" -> lookup_key "port" kvs = Some (JNum q) ->
  (Zod.is_integer q = false \/ (q <= 0)%Q) ->
  status (fst (ZeusController.saveCredentials (mkRequest (Some tid) (JObj kvs)) t)) = 400%Z /\
  snd (ZeusController.saveCredentials (mkRequest (Some tid) (JObj kvs)) t) = t.
Proof.
  intros Ht Hp Hq.
  assert (P : exists iss, Schema.port_schema (lookup_key "port" kvs) =
                          Zod.Returned (Zod.ZDirty iss)).
  { rewrite Hp. unfold Schema.port_schema, Zod.union2, Schema.port_number_branch,
      Zod.number_int_positive. simpl.
    destruct Hq as [Hq|Hq].
    - rewrite Hq. simpl. eauto.
    - apply Qle_bool_iff in Hq. rewrite Hq. simpl.
      destruct (Zod.is_integer q); simpl; eauto. }
  destruct P as (iss & P).
  destruct (password_schema_returned (lookup_key "password" kvs)) as (rw & W).
  destruct (safeParse_error_of kvs _ rw P W (or_introl eq_refl)) as (errs & E).
  rewrite (save_parse_error tid _ errs t Ht E). split; reflexivity.
Qed.

Lemma digits_prefix_app ds c r acc cnt :
  all_digits ds = true -> JS.digit_value c = None ->
  JS.digits_prefix (ds ++ String c r)%string acc cnt = JS.digits_prefix ds acc cnt.
Proof.
  revert acc cnt. induction ds as [|d ds IH]; intros acc cnt Hd Hc; simpl.
  - rewrite Hc. reflexivity.
  - simpl in Hd. destruct (JS.digit_value d); [|discriminate]. apply IH; assumption.
Qed.

(** [parseInt] stops at the first non-digit: a port string made of digits
    followed by a non-digit character and anything else reads as the digits
    alone, and the port schema treats both strings the same way (so
    "12abc" is accepted as 12). *)
Theorem port_numeric_prefix ds c r :
  ds <> "" -> all_digits ds = true -> JS.digit_value c = None ->
  JS.parseInt10 (ds ++ String c r)%string = JS.parseInt10 ds /\
  Schema.port_schema (Some (JStr (ds ++ String c r)%string)) =
    Schema.port_schema (Some (JStr ds)).
Proof.
  intros Hne Hd Hc.
  assert (Hp : JS.parseInt10 (ds ++ String c r)%string = JS.parseInt10 ds).
  { destruct ds as [|d ds]; [contradiction|].
    pose proof (fun acc cnt => digits_prefix_app ds c r acc cnt) as Hpre.
    simpl in Hd. destruct (JS.digit_value d) eqn:Ed; [|discriminate].
    assert (Hpre' : forall acc cnt, JS.digits_prefix (ds ++ String c r)%string acc cnt
                                   = JS.digits_prefix ds acc cnt)
      by (intros; apply Hpre; assumption).
    destruct d as [[] [] [] [] [] [] [] []]; try discriminate Ed;
      unfold JS.parseInt10; simpl; rewrite ?Hpre'; reflexivity. }
  split; [exact Hp|].
  unfold Schema.port_schema, Zod.union2, Schema.port_number_branch,
    Schema.port_string_branch. cbn [Zod.bind Zod.number_int_positive].
  rewrite !string_min1_nonempty by (destruct ds; simpl; discriminate || contradiction).
  rewrite Hp. reflexivity.
Qed.


(* ------------------------------------------------------------------ *)
(** ** Requests built by the settings page *)

Definition stringify_kvs (o : Frontend.jsobj) : list (string * json) :=
  flat_map (fun kv => match snd kv with
                      | Frontend.Undefined => []
                      | Frontend.Val v => [(fst kv, v)]
                      end) o.

Lemma stringify_set_same k v o :
  lookup_key k (stringify_kvs (Frontend.js_set k (Frontend.Val v) o)) = Some v.
Proof.
  induction o as [|[k' v'] o IH]; simpl.
  - rewrite String.eqb_refl. reflexivity.
  - destruct (String.eqb_spec k k') as [<-|E]; simpl.
    + rewrite String.eqb_refl. reflexivity.
    + destruct v' as [|w]; simpl; [exact IH|].
      destruct (String.eqb_spec k k'); [contradiction|exact IH].
Qed.

Lemma stringify_set_other k k' v o :
  k' <> k ->
  lookup_key k' (stringify_kvs (Frontend.js_set k v o)) = lookup_key k' (stringify_kvs o).
Proof.
  intros Hk. induction o as [|[k0 v0] o IH]; simpl.
  - destruct v; simpl; [reflexivity|].
    destruct (String.eqb_spec k' k); [contradiction|reflexivity].
  - destruct (String.eqb_spec k k0) as [<-|E]; simpl.
    + destruct v, v0; simpl; try reflexivity;
        destruct (String.eqb_spec k' k); try contradiction; reflexivity.
    + destruct v0 as [|w]; simpl; [exact IH|].
      destruct (String.eqb k' k0); [reflexivity|exact IH].
Qed.

(** Removing the Zeus integration sends a body that clears host, database,
    username and password to "" and carries no [zeusPort] key at all
    ([JSON.stringify] drops the [undefined] port); a declined confirmation
    sends nothing, for every integration. *)
Theorem removeIntegration_zeus_body role sel :
  (exists kvs, Frontend.removeIntegration_body true Frontend.zeus role sel = Some (JObj kvs) /\
     lookup_key "zeusHost" kvs = Some (JStr "") /\
     lookup_key "zeusDatabase" kvs = Some (JStr "") /\
     lookup_key "zeusUsername" kvs = Some (JStr "") /\
     lookup_key "zeusPassword" kvs = Some (JStr "") /\
     lookup_key "zeusPort" kvs = None) /\
  (forall type, Frontend.removeIntegration_body false type role sel = None).
Proof.
  split; [|reflexivity].
  unfold Frontend.removeIntegration_body. cbv zeta. simpl negb. cbn iota.
  set (o := Frontend.js_set "zeusPassword" _ _).
  eexists. split; [reflexivity|].
  assert (Hl : forall k, k <> "tenantId" ->
    lookup_key k (stringify_kvs
      (if Frontend.is_superadmin role then
         match sel with
         | Some s => if truthy_opt_string (Some s)
                     then Frontend.js_set "tenantId" (Frontend.Val (JStr s)) o else o
         | None => o
         end else o)) = lookup_key k (stringify_kvs o)).
  { intros k Hk. destruct (Frontend.is_superadmin role); [|reflexivity].
    destruct sel as [s|]; [|reflexivity].
    destruct (truthy_opt_string (Some s)); [|reflexivity].
    apply stringify_set_other. exact Hk. }
  unfold Frontend.stringify.
  repeat split; (rewrite Hl; [reflexivity|discriminate]).
Qed.

(** The page targets the same tenant in all its requests: the settings
    URL, the [onSubmit] body and the [removeIntegration] body all carry the
    tenant selected in local storage exactly when the user is a super admin
    and the selection is a non-empty string; [onSubmit] otherwise sends the
    form data unchanged, and adding the tenant changes no other key. *)
Theorem selected_tenant_consistent role sel data :
  Frontend.loadSettings_url role sel =
    match Frontend.selected_tenant role sel with
    | Some s => ("/api/settings?tenantId=" ++ s)%string
    | None => "/api/settings"
    end /\
  (forall s, Frontend.selected_tenant role sel = Some s ->
     get_field "tenantId" (Frontend.onSubmit_body role sel data) = Some (JStr s) /\
     forall k, k <> "tenantId" ->
       get_field k (Frontend.onSubmit_body role sel data) =
       get_field k (Frontend.stringify data)) /\
  (Frontend.selected_tenant role sel = None ->
     Frontend.onSubmit_body role sel data = Frontend.stringify data) /\
  (forall type, exists kvs,
     Frontend.removeIntegration_body true type role sel = Some (JObj kvs) /\
     lookup_key "tenantId" kvs = option_map JStr (Frontend.selected_tenant role sel)).
Proof.
  unfold Frontend.selected_tenant, Frontend.loadSettings_url, Frontend.onSubmit_body,
    Frontend.removeIntegration_body, Frontend.stringify.
  destruct (Frontend.is_superadmin role).
  - destruct sel as [s|].
    + unfold truthy_opt_string. destruct (String.eqb_spec s "") as [->|Hs]; simpl.
      * split; [reflexivity|]. split; [intros s0 H; discriminate|].
        split; [reflexivity|]. intros []; eexists; split; reflexivity.
      * split; [reflexivity|]. split.
        -- intros s0 [= <-]. split; [apply stringify_set_same|].
           intros k Hk. apply stringify_set_other. exact Hk.
        -- split; [discriminate|]. intros type. eexists. split; [reflexivity|].
           simpl. apply stringify_set_same.
    + split; [reflexivity|]. split; [intros s0 H; discriminate|].
      split; [reflexivity|]. intros []; eexists; split; reflexivity.
  - split; [reflexivity|]. split; [intros s0 H; discriminate|].
    split; [reflexivity|]. intros []; eexists; split; reflexivity.
Qed.

(* ------------------------------------------------------------------ *)
(** ** Instances of the hypotheses above *)



Lemma save_null_password_witness :
  let kvs := [("port", JNum 5); ("password", JNull)] in
  "t1" <> "" /\ lookup_key "password" kvs = Some JNull /\
  (forall s, lookup_key "port" kvs <> Some (JStr s)) /\
  status (fst (ZeusController.saveCredentials (mkRequest (Some "t1") (JObj kvs)) [])) = 400%Z /\
  snd (ZeusController.saveCredentials (mkRequest (Some "t1") (JObj kvs)) []) = [].
Proof.
  cbv zeta. split; [discriminate|]. split; [reflexivity|].
  split; [intros s H; cbn in H; discriminate|].
  apply save_null_password; [discriminate | reflexivity | intros s H; cbn in H; discriminate].
Defined.

Lemma save_bad_number_port_witness :
  let kvs := [("port", JNum (1 # 2))] in
  "t1" <> "" /\ lookup_key "port" kvs = Some (JNum (1 # 2)) /\
  (Zod.is_integer (1 # 2) = false \/ (1 # 2 <= 0)%Q) /\
  status (fst (ZeusController.saveCredentials (mkRequest (Some "t1") (JObj kvs)) [])) = 400%Z /\
  snd (ZeusController.saveCredentials (mkRequest (Some "t1") (JObj kvs)) []) = [].
Proof.
  cbv zeta. split; [discriminate|]. split; [reflexivity|].
  split; [left; reflexivity|].
  apply (save_bad_number_port "t1" _ (1 # 2) []); [discriminate | reflexivity | left; reflexivity].
Defined.

Lemma port_numeric_prefix_witness :
  "12" <> "" /\ all_digits "12" = true /\ JS.digit_value "a"%char = None /\
  JS.parseInt10 ("12" ++ String "a" "bc")%string = JS.parseInt10 "12" /\
  Schema.port_schema (Some (JStr ("12" ++ String "a" "bc")%string)) =
    Schema.port_schema (Some (JStr "12")).
Proof.
  split; [discriminate|]. split; [reflexivity|]. split; [reflexivity|].
  apply port_numeric_prefix; [discriminate | reflexivity | reflexivity].
Defined.

